(** * The state loop of [src/main.js]

    The application keeps one persistent state value: the live RGB triple
    of three sliders and the list of triples saved so far.  Components
    never own state; they emit _actions_ (functions from state to state)
    which a single [fold] applies in order.

    The development follows the source top-down: the Ramda lenses used to
    read and rebuild the state, the getters, [canSave], the four action
    constructors, the three components, and [main] with its fold. *)

From Stdlib Require Import NArith Ascii DecimalString DecimalN Lia.
From stdpp Require Import base list strings relations.

Local Open Scope string_scope.
Local Open Scope list_scope.

(** ** Ramda: lenses and [append]

    Only the part of Ramda that [main.js] calls.  A lens pairs a getter
    with a copying setter; [R.set] never writes into its argument, it
    returns a rebuilt value. *)
Module R.

Record Lens (S A : Type) : Type := lens {
  getter : S -> A;
  setter : A -> S -> S;
}.
Arguments lens {S A} _ _.
Arguments getter {S A} _ _.
Arguments setter {S A} _ _ _.

Definition view {S A} (l : Lens S A) (s : S) : A := getter l s.

Definition set {S A} (l : Lens S A) (v : A) (s : S) : S := setter l v s.

(** [R.lensPath([p, q])]: read [q] inside [p]; to write, rebuild the
    inner value with [q] replaced and put it back under [p]
    (Ramda's [assocPath]). *)
Definition lensPath {S T A} (p : Lens S T) (q : Lens T A) : Lens S A :=
  lens (fun s => getter q (getter p s))
       (fun v s => setter p (setter q v (getter p s)) s).

(** [R.append(el, list)]: a new list with [el] at the end. *)
Definition append {A} (el : A) (xs : list A) : list A := xs ++ [el].

(** The three lens laws. *)
Class Lawful {S A} (l : Lens S A) : Prop := {
  view_set v s : view l (set l v s) = v;
  set_view s : set l (view l s) s = s;
  set_set v w s : set l w (set l v s) = set l w s;
}.

(** Two lenses into the same structure that focus on disjoint parts. *)
Class Disjoint {S A B} (l : Lens S A) (m : Lens S B) : Prop := {
  view_other_l v s : view m (set l v s) = view m s;
  view_other_r w s : view l (set m w s) = view l s;
  set_comm v w s : set l v (set m w s) = set m w (set l v s);
}.

End R.

(** ** The state *)

Record RGB : Type := mkRGB { r : string; g : string; b : string }.

Record State : Type := mkState { rgb : RGB; saves : list RGB }.

#[global] Instance RGB_eq_dec : EqDecision RGB.
Proof. solve_decision. Defined.

#[global] Instance State_eq_dec : EqDecision State.
Proof. solve_decision. Defined.

Definition initialState : State :=
  {| rgb := {| r := "0"; g := "0"; b := "0" |}; saves := [] |}.

(** Property lenses ([R.lensProp]) of the two record shapes. *)
Definition prop_r : R.Lens RGB string :=
  R.lens r (fun v c => {| r := v; g := g c; b := b c |}).
Definition prop_g : R.Lens RGB string :=
  R.lens g (fun v c => {| r := r c; g := v; b := b c |}).
Definition prop_b : R.Lens RGB string :=
  R.lens b (fun v c => {| r := r c; g := g c; b := v |}).

Definition lensRGB : R.Lens State RGB :=
  R.lens rgb (fun v s => {| rgb := v; saves := saves s |}).
Definition lensR : R.Lens State string := R.lensPath lensRGB prop_r.
Definition lensG : R.Lens State string := R.lensPath lensRGB prop_g.
Definition lensB : R.Lens State string := R.lensPath lensRGB prop_b.
Definition lensSaves : R.Lens State (list RGB) :=
  R.lens saves (fun v s => {| rgb := rgb s; saves := v |}).

(** Getters. *)
Definition getR (state : State) : string := R.view lensR state.
Definition getG (state : State) : string := R.view lensG state.
Definition getB (state : State) : string := R.view lensB state.

(** [canSave]: any colour but cyan.  [===] on strings is [String.eqb]. *)
Definition canSave (state : State) : bool :=
  negb ((getR state =? "0") && (getG state =? "255") && (getB state =? "255")).

(** Actions are functions from state to state. *)
Definition Action : Type := State -> State.

Definition setR (value : string) : Action := fun state => R.set lensR value state.
Definition setG (value : string) : Action := fun state => R.set lensG value state.
Definition setB (value : string) : Action := fun state => R.set lensB value state.

Definition save (_ : unit) : Action :=
  fun state =>
    let newRGB := R.view lensRGB state in
    let saves := R.view lensSaves state in
    R.set lensSaves (R.append newRGB saves) initialState.

(** ** xstream: timed streams and [fold]

    A stream is the list of its events in emission order, each stamped
    with the tick at which it fired.  [fold] gives a memory stream: the
    seed first, then one accumulated value for every incoming event,
    emitted at that event's tick. *)
Module xs.

Definition Time : Type := nat.
Definition Stream (A : Type) : Type := list (Time * A).

Record MemoryStream (S : Type) : Type := memory {
  seed : S;
  emissions : Stream S;
}.
Arguments memory {S} _ _.
Arguments seed {S} _.
Arguments emissions {S} _.

Fixpoint accumulate_from {A S} (accumulate : S -> A -> S) (acc : S)
    (ins : Stream A) : Stream S :=
  match ins with
  | [] => []
  | (t, a) :: rest =>
      let acc' := accumulate acc a in
      (t, acc') :: accumulate_from accumulate acc' rest
  end.

Definition fold {A S} (accumulate : S -> A -> S) (seed : S)
    (ins : Stream A) : MemoryStream S :=
  memory seed (accumulate_from accumulate seed ins).

(** The value a late subscriber of a memory stream sees. *)
Definition latest {S} (m : MemoryStream S) : S :=
  List.last (List.map snd (emissions m)) (seed m).

(** Everything the stream has emitted, oldest first. *)
Definition history {S} (m : MemoryStream S) : list S :=
  seed m :: List.map snd (emissions m).

End xs.

(** [state$] of [main]: the fold of the action stream over [initialState]. *)
Definition state_ (actionProxy_ : xs.Stream Action) : xs.MemoryStream State :=
  xs.fold (fun state action => action state) initialState actionProxy_.

(** The actions the application can emit: the four constructors.  [P]
    restricts the values carried by the setters. *)
Inductive emitted (P : string -> Prop) : Action -> Prop :=
| emitted_setR v : P v -> emitted P (setR v)
| emitted_setG v : P v -> emitted P (setG v)
| emitted_setB v : P v -> emitted P (setB v)
| emitted_save : emitted P (save ()).

Definition any_value : string -> Prop := fun _ => True.

(** One transition of the state machine, and the states it can reach. *)
Definition step (P : string -> Prop) : relation State :=
  fun s s' => exists a, emitted P a /\ s' = a s.

Definition reachable (P : string -> Prop) (s : State) : Prop :=
  rtc (step P) initialState s.

(** ** Values of a range control

    [is_byte v]: [v] is a non-empty run of decimal digits denoting an
    integer of at most 255. *)
Definition is_byte (v : string) : bool :=
  match NilZero.uint_of_string v with
  | Some d => (N.of_uint d <=? 255)%N
  | None => false
  end.

Definition rgb_in_range (c : RGB) : bool :=
  is_byte (r c) && is_byte (g c) && is_byte (b c).

Definition byte_value : string -> Prop := fun v => is_byte v = true.

(** Every field of a triple, and every triple of a state, holds a value
    that satisfies [P]. *)
Definition fields_in (P : string -> Prop) (c : RGB) : Prop :=
  P (r c) /\ P (g c) /\ P (b c).

Definition state_in (P : string -> Prop) (s : State) : Prop :=
  fields_in P (rgb s) /\ Forall (fields_in P) (saves s).

Definition decimal (n : N) : string := NilZero.string_of_uint (N.to_uint n).

(** ** The virtual DOM and its events *)
Module dom.

#[local] Set Warnings "-register-all".

Inductive VNode : Type :=
| div (selector : string) (children : list VNode)
| label (text : string)
| input (selector : string) (type : string) (min max : N) (value : string)
| button (selector : string) (disabled : bool) (caption : string)
| pre (text : string).

(** What a component hears: the event type, the selector of the element
    it fired on and, for [change], [ev.target.value]. *)
Inductive Event : Type :=
| change (target : string) (value : string)
| click (target : string).

(** The element of a tree that carries a selector (first match,
    document order). *)
Fixpoint select (selector : string) (v : VNode) : option VNode :=
  match v with
  | div s children =>
      if s =? selector then Some v
      else (fix first (l : list VNode) : option VNode :=
              match l with
              | [] => None
              | c :: l' =>
                  match select selector c with
                  | Some e => Some e
                  | None => first l'
                  end
              end) children
  | label _ => None
  | input s _ _ _ _ => if s =? selector then Some v else None
  | button s _ _ => if s =? selector then Some v else None
  | pre _ => None
  end.

End dom.

(** [JSON.stringify] of a saved triple. *)
Module JSON.

Definition quote : string := String (ascii_of_nat 34) "".
Definition backslash : string := String (ascii_of_nat 92) "".

Definition hex_digit (n : nat) : ascii :=
  ascii_of_nat (if (n <? 10)%nat then 48 + n else 87 + n).

Definition escape_char (c : ascii) : string :=
  let n := nat_of_ascii c in
  if (n =? 34)%nat then backslash +:+ quote
  else if (n =? 92)%nat then backslash +:+ backslash
  else if (n =? 8)%nat then backslash +:+ "b"
  else if (n =? 12)%nat then backslash +:+ "f"
  else if (n =? 10)%nat then backslash +:+ "n"
  else if (n =? 13)%nat then backslash +:+ "r"
  else if (n =? 9)%nat then backslash +:+ "t"
  else if (n <? 32)%nat then
    backslash +:+ "u00" +:+ String (hex_digit (n / 16)) (String (hex_digit (n mod 16)) "")
  else String c "".

Fixpoint escape (s : string) : string :=
  match s with
  | EmptyString => ""
  | String c rest => escape_char c +:+ escape rest
  end.

Definition string_literal (s : string) : string := quote +:+ escape s +:+ quote.

Definition member (key value : string) : string :=
  string_literal key +:+ ":" +:+ string_literal value.

Definition stringify (c : RGB) : string :=
  "{" +:+ member "r" (r c) +:+ "," +:+ member "g" (g c) +:+ ","
      +:+ member "b" (b c) +:+ "}".

End JSON.

(** ** Components

    A component is given the props computed from the current state.  Its
    [DOM] is the tree it renders; its [action] is what it emits for a DOM
    event: the events on its own selector, mapped through [props.set]. *)
Module LabeledSlider.

Record Props : Type := {
  set : string -> Action;
  label : string;
  selector : string;
  min : N;
  max : N;
  get : string;
}.

Definition action (props : Props) (ev : dom.Event) : option Action :=
  match ev with
  | dom.change target value =>
      if target =? selector props then Some (set props value) else None
  | dom.click _ => None
  end.

(** The tree rendered for props whose [selector] the element helpers
    read as a selector and whose [label] they read as text, which is how
    [main] calls the component. *)
Definition DOM (props : Props) : dom.VNode :=
  dom.div ""
    [ dom.label (label props)
    ; dom.input (selector props) "range" (min props) (max props) (get props)
    ].

End LabeledSlider.

Module ActionButton.

Record Props : Type := {
  selector : string;
  caption : string;
  set : unit -> Action;
  canAct : bool;
}.

Definition action (props : Props) (ev : dom.Event) : option Action :=
  match ev with
  | dom.click target =>
      if target =? selector props then Some (set props ()) else None
  | dom.change _ _ => None
  end.

(** The tree rendered for props whose [selector] the element helpers
    read as a selector, which is how [main] calls the component. *)
Definition DOM (props : Props) : dom.VNode :=
  dom.div ""
    [ dom.button (selector props) (negb (canAct props)) (caption props) ].

End ActionButton.

Module SavesDisplay.

Record Props : Type := {
  selector : string;
  saves : list RGB;
}.

Definition DOM (props : Props) : dom.VNode :=
  dom.div (selector props)
    (List.map (fun save => dom.pre (JSON.stringify save)) (saves props)).

End SavesDisplay.

(** ** [main]: props from the state, merged actions, composed view

    Every instance is wrapped in [isolate], which scopes its DOM source to
    its own subtree; here an event names the selector it fired on and the
    five selectors are distinct. *)
Module main.

Definition redSlider (state : State) : LabeledSlider.Props :=
  {| LabeledSlider.set := setR;
     LabeledSlider.label := "Red";
     LabeledSlider.selector := ".red";
     LabeledSlider.min := 0;
     LabeledSlider.max := 255;
     LabeledSlider.get := getR state |}.

Definition greenSlider (state : State) : LabeledSlider.Props :=
  {| LabeledSlider.set := setG;
     LabeledSlider.label := "Green";
     LabeledSlider.selector := ".green";
     LabeledSlider.min := 0;
     LabeledSlider.max := 255;
     LabeledSlider.get := getG state |}.

Definition blueSlider (state : State) : LabeledSlider.Props :=
  {| LabeledSlider.set := setB;
     LabeledSlider.label := "Blue";
     LabeledSlider.selector := ".blue";
     LabeledSlider.min := 0;
     LabeledSlider.max := 255;
     LabeledSlider.get := getB state |}.

Definition saveButton (state : State) : ActionButton.Props :=
  {| ActionButton.selector := ".save";
     ActionButton.caption := "Save";
     ActionButton.set := save;
     ActionButton.canAct := canSave state |}.

Definition savesDisplay (state : State) : SavesDisplay.Props :=
  {| SavesDisplay.selector := ".saves";
     SavesDisplay.saves := R.view lensSaves state |}.

(** [xs.merge] of the four action streams: what one DOM event makes the
    components emit, in merge order. *)
Definition action_ (state : State) (ev : dom.Event) : list Action :=
  omap id
    [ LabeledSlider.action (redSlider state) ev
    ; LabeledSlider.action (greenSlider state) ev
    ; LabeledSlider.action (blueSlider state) ev
    ; ActionButton.action (saveButton state) ev
    ].

Definition vtree_ (state : State) : dom.VNode :=
  dom.div ""
    [ LabeledSlider.DOM (redSlider state)
    ; LabeledSlider.DOM (greenSlider state)
    ; LabeledSlider.DOM (blueSlider state)
    ; ActionButton.DOM (saveButton state)
    ; SavesDisplay.DOM (savesDisplay state)
    ].

End main.

(** ** The host document

    The DOM driver turns what the user does to the rendered page into DOM
    events.  Two facts about the host matter to the loop and are kept as
    parameters: whether pressing a button whose [disabled] property has
    the given value fires [click], and which value a range control with
    the given bounds reports when dragged to a position. *)
Inductive Gesture : Type :=
| slide (selector : string) (position : N)
| press (selector : string).

Record Host : Type := {
  fires_click : bool -> bool;
  range_value : N -> N -> N -> string;
}.

Definition deliver (h : Host) (view : dom.VNode) (gesture : Gesture)
    : option dom.Event :=
  match gesture with
  | press selector =>
      match dom.select selector view with
      | Some (dom.button _ disabled _) =>
          if fires_click h disabled then Some (dom.click selector) else None
      | Some _ => Some (dom.click selector)
      | None => None
      end
  | slide selector position =>
      match dom.select selector view with
      | Some (dom.input _ _ lo hi _) =>
          Some (dom.change selector (range_value h lo hi position))
      | _ => None
      end
  end.

(** A browser: a disabled control gets no [click]; a range control
    reports the position clamped to its bounds, in decimal. *)
Definition browser : Host :=
  {| fires_click := negb;
     range_value := fun lo hi position => decimal (N.max lo (N.min hi position)) |}.

(** A host that lets clicks through to disabled controls. *)
Definition permissive : Host :=
  {| fires_click := fun _ => true;
     range_value := range_value browser |}.

(** One turn of the loop.  Execution is single-threaded and every stream
    runs to completion before the next DOM event is taken, so a gesture
    always meets the view rendered from the current state; the fold then
    applies whatever the components emit for the event delivered. *)
Definition react (h : Host) (state : State) (gesture : Gesture) : State :=
  match deliver h (main.vtree_ state) gesture with
  | Some ev =>
      foldl (fun state action => action state) state (main.action_ state ev)
  | None => state
  end.

Definition session (h : Host) (state : State) (gestures : list Gesture) : State :=
  foldl (react h) state gestures.

Definition cyan : RGB := {| r := "0"; g := "255"; b := "255" |}.

(** ** Vocabulary for statements about sessions and views *)

(** The child nodes of an element. *)
Definition children (v : dom.VNode) : list dom.VNode :=
  match v with
  | dom.div _ cs => cs
  | _ => []
  end.

(** Presses on the save button among a list of gestures. *)
Definition is_save_press (gesture : Gesture) : bool :=
  match gesture with
  | press selector => selector =? ".save"
  | slide _ _ => false
  end.

Definition save_presses (gestures : list Gesture) : nat :=
  length (List.filter is_save_press gestures).

(** The text of [JSON.stringify] when nothing needs escaping. *)
Definition plain_json (c : RGB) : string :=
  "{" +:+ JSON.quote +:+ "r" +:+ JSON.quote +:+ ":" +:+ JSON.quote +:+ r c +:+ JSON.quote
  +:+ "," +:+ JSON.quote +:+ "g" +:+ JSON.quote +:+ ":" +:+ JSON.quote +:+ g c +:+ JSON.quote
  +:+ "," +:+ JSON.quote +:+ "b" +:+ JSON.quote +:+ ":" +:+ JSON.quote +:+ b c +:+ JSON.quote
  +:+ "}".

(** The element helpers of the DOM library ([div], [input], [label],
    [button], [pre]) read a leading string argument as a selector only
    when it starts with "." or "#"; any other string is content. *)
Definition reads_as_selector (s : string) : bool :=
  match s with
  | String c _ => (nat_of_ascii c =? 46)%nat || (nat_of_ascii c =? 35)%nat
  | EmptyString => false
  end.

Definition is_letter (c : ascii) : bool :=
  ((65 <=? nat_of_ascii c)%nat && (nat_of_ascii c <=? 90)%nat)
  || ((97 <=? nat_of_ascii c)%nat && (nat_of_ascii c <=? 122)%nat).

Definition is_name_char (c : ascii) : bool :=
  is_letter c
  || ((48 <=? nat_of_ascii c)%nat && (nat_of_ascii c <=? 57)%nat)
  || (nat_of_ascii c =? 45)%nat || (nat_of_ascii c =? 95)%nat.

Fixpoint all_name_chars (s : string) : bool :=
  match s with
  | EmptyString => true
  | String c rest => is_name_char c && all_name_chars rest
  end.

(** A selector that names one class or one id: "." or "#", a letter,
    then letters, digits, "-" or "_".  Two elements built from such
    selectors are told apart by [select] exactly when the selectors
    differ as strings. *)
Definition simple_selector (s : string) : bool :=
  match s with
  | String _ (String c rest) =>
      reads_as_selector s && is_letter c && all_name_chars rest
  | _ => false
  end.

(** Strings made of decimal digits only. *)
Definition is_digit (c : ascii) : bool :=
  (48 <=? nat_of_ascii c)%nat && (nat_of_ascii c <=? 57)%nat.

Fixpoint all_digits (s : string) : bool :=
  match s with
  | EmptyString => true
  | String c rest => is_digit c && all_digits rest
  end.

(** * Properties *)

(** ** Lens laws for the lenses of the state *)

#[global] Instance prop_r_lawful : R.Lawful prop_r.
Proof. split; [done | by intros [] | done]. Qed.

#[global] Instance prop_g_lawful : R.Lawful prop_g.
Proof. split; [done | by intros [] | done]. Qed.

#[global] Instance prop_b_lawful : R.Lawful prop_b.
Proof. split; [done | by intros [] | done]. Qed.

#[global] Instance lensRGB_lawful : R.Lawful lensRGB.
Proof. split; [done | by intros [] | done]. Qed.

#[global] Instance lensSaves_lawful : R.Lawful lensSaves.
Proof. split; [done | by intros [] | done]. Qed.

#[global] Instance prop_r_g_disjoint : R.Disjoint prop_r prop_g.
Proof. by split. Qed.

#[global] Instance prop_r_b_disjoint : R.Disjoint prop_r prop_b.
Proof. by split. Qed.

#[global] Instance prop_g_b_disjoint : R.Disjoint prop_g prop_b.
Proof. by split. Qed.

#[global] Instance lensRGB_lensSaves_disjoint : R.Disjoint lensRGB lensSaves.
Proof. by split. Qed.

Section lens_paths.
Context {S T A B : Type}.
Context (p : R.Lens S T) (q : R.Lens T A) (q' : R.Lens T B).
Context `{!R.Lawful p}.

(** A path through lawful lenses is lawful. *)
#[global] Instance lensPath_lawful `{!R.Lawful q} : R.Lawful (R.lensPath p q).
Proof.
  split.
  - intros v s. change (R.view q (R.view p (R.set p (R.set q v (R.view p s)) s)) = v).
    by rewrite !R.view_set.
  - intros s. change (R.set p (R.set q (R.view q (R.view p s)) (R.view p s)) s = s).
    by rewrite !R.set_view.
  - intros v w s.
    change (R.set p (R.set q w (R.view p (R.set p (R.set q v (R.view p s)) s)))
              (R.set p (R.set q v (R.view p s)) s)
            = R.set p (R.set q w (R.view p s)) s).
    by rewrite R.view_set, !R.set_set.
Qed.

(** Two paths that part ways at their last property are disjoint. *)
#[global] Instance lensPath_disjoint `{!R.Disjoint q q'} :
  R.Disjoint (R.lensPath p q) (R.lensPath p q').
Proof.
  split.
  - intros v s.
    change (R.view q' (R.view p (R.set p (R.set q v (R.view p s)) s))
            = R.view q' (R.view p s)).
    by rewrite R.view_set, R.view_other_l.
  - intros w s.
    change (R.view q (R.view p (R.set p (R.set q' w (R.view p s)) s))
            = R.view q (R.view p s)).
    by rewrite R.view_set, R.view_other_r.
  - intros v w s.
    change (R.set p (R.set q v (R.view p (R.set p (R.set q' w (R.view p s)) s)))
              (R.set p (R.set q' w (R.view p s)) s)
            = R.set p (R.set q' w (R.view p (R.set p (R.set q v (R.view p s)) s)))
                (R.set p (R.set q v (R.view p s)) s)).
    by rewrite !R.view_set, !R.set_set, R.set_comm.
Qed.

(** A path stays clear of whatever its first property is disjoint from. *)
Lemma lensPath_disjoint_outer {C} (m : R.Lens S C) `{!R.Disjoint p m} :
  R.Disjoint (R.lensPath p q) m.
Proof.
  split.
  - intros v s. change (R.view m (R.set p (R.set q v (R.view p s)) s) = R.view m s).
    by rewrite R.view_other_l.
  - intros w s. change (R.view q (R.view p (R.set m w s)) = R.view q (R.view p s)).
    by rewrite R.view_other_r.
  - intros v w s.
    change (R.set p (R.set q v (R.view p (R.set m w s))) (R.set m w s)
            = R.set m w (R.set p (R.set q v (R.view p s)) s)).
    by rewrite R.view_other_r, R.set_comm.
Qed.
End lens_paths.

#[global] Instance lensR_lensSaves_disjoint : R.Disjoint lensR lensSaves.
Proof. apply lensPath_disjoint_outer; apply _. Qed.

#[global] Instance lensG_lensSaves_disjoint : R.Disjoint lensG lensSaves.
Proof. apply lensPath_disjoint_outer; apply _. Qed.

#[global] Instance lensB_lensSaves_disjoint : R.Disjoint lensB lensSaves.
Proof. apply lensPath_disjoint_outer; apply _. Qed.

(** ** The setters *)

Lemma setR_unfold v s :
  setR v s = {| rgb := {| r := v; g := g (rgb s); b := b (rgb s) |}; saves := saves s |}.
Proof. reflexivity. Qed.

Lemma setG_unfold v s :
  setG v s = {| rgb := {| r := r (rgb s); g := v; b := b (rgb s) |}; saves := saves s |}.
Proof. reflexivity. Qed.

Lemma setB_unfold v s :
  setB v s = {| rgb := {| r := r (rgb s); g := g (rgb s); b := v |}; saves := saves s |}.
Proof. reflexivity. Qed.

Lemma save_unfold s :
  save () s = {| rgb := rgb initialState; saves := saves s ++ [rgb s] |}.
Proof. reflexivity. Qed.

(** Setting twice through a lawful lens keeps the last value only. *)
Lemma set_twice {S A} (l : R.Lens S A) `{!R.Lawful l} v s :
  R.set l v (R.set l v s) = R.set l v s.
Proof. apply R.set_set. Qed.

(** C3: a setter replaces its own field by the value it was given and
    leaves the two other fields and [saves] as they were; this holds for
    [setR], [setG] and [setB], for every state and every value. *)
Theorem setter_changes_only_its_field (s : State) (v : string) :
  (getR (setR v s) = v /\ getG (setR v s) = getG s /\ getB (setR v s) = getB s
     /\ saves (setR v s) = saves s)
  /\ (getR (setG v s) = getR s /\ getG (setG v s) = v /\ getB (setG v s) = getB s
     /\ saves (setG v s) = saves s)
  /\ (getR (setB v s) = getR s /\ getG (setB v s) = getG s /\ getB (setB v s) = v
     /\ saves (setB v s) = saves s).
Proof.
  unfold getR, getG, getB, setR, setG, setB.
  change saves with (R.view lensSaves).
  repeat split;
    first [ apply R.view_set
          | apply R.view_other_l
          | apply R.view_other_r ].
Qed.

(** C2: [save()] appends the live triple to the end of [saves] and puts
    the live triple back to all zeros; the result is the initial state
    with only [saves] replaced. *)
Theorem save_appends_and_resets (s : State) :
  saves (save () s) = saves s ++ [rgb s]
  /\ rgb (save () s) = {| r := "0"; g := "0"; b := "0" |}
  /\ save () s = R.set lensSaves (saves s ++ [rgb s]) initialState.
Proof. by rewrite save_unfold. Qed.

(** C7: applying [setR("128")] twice in a row gives the same state as
    applying it once. *)
Theorem setR_128_idempotent (s : State) :
  setR "128" (setR "128" s) = setR "128" s.
Proof. unfold setR. apply set_twice, _. Qed.

(** C9: the setters store the value they are given as it is: whatever
    string is passed, in range or not, numeric or not, is what the field
    reads afterwards. *)
Theorem setters_store_verbatim (s : State) (v : string) :
  r (rgb (setR v s)) = v /\ g (rgb (setG v s)) = v /\ b (rgb (setB v s)) = v.
Proof.
  change (getR (setR v s) = v /\ getG (setG v s) = v /\ getB (setB v s) = v).
  unfold getR, getG, getB, setR, setG, setB.
  by rewrite !R.view_set.
Qed.

(** C10: setters of two different fields commute, for each of the three
    pairs of fields. *)
Theorem distinct_setters_commute (s : State) (v w : string) :
  setG w (setR v s) = setR v (setG w s)
  /\ setB w (setR v s) = setR v (setB w s)
  /\ setB w (setG v s) = setG v (setB w s).
Proof.
  unfold setR, setG, setB.
  split_and!; symmetry; apply R.set_comm.
Qed.

(** ** Save eligibility *)

Lemma canSave_spec (s : State) : canSave s = negb (bool_decide (rgb s = cyan)).
Proof.
  destruct s as [[x y z] l]. unfold canSave, getR, getG, getB, cyan. simpl.
  f_equal. case_bool_decide as E.
  - injection E as -> -> ->. done.
  - apply not_true_is_false. rewrite !andb_true_iff, !String.eqb_eq.
    intros [[-> ->] ->]. by apply E.
Qed.

(** C4: [canSave] answers false exactly when the live triple is
    (r = 0, g = 255, b = 255), and true for every other triple; the
    neighbouring triples (255, 0, 0) and (0, 255, 254) are allowed. *)
Theorem canSave_false_iff_cyan (s : State) :
  (canSave s = false <-> rgb s = {| r := "0"; g := "255"; b := "255" |})
  /\ (canSave s = true <-> rgb s <> {| r := "0"; g := "255"; b := "255" |})
  /\ canSave {| rgb := {| r := "255"; g := "0"; b := "0" |}; saves := saves s |} = true
  /\ canSave {| rgb := {| r := "0"; g := "255"; b := "254" |}; saves := saves s |} = true.
Proof.
  fold cyan. rewrite canSave_spec.
  split_and!; [| | done..]; case_bool_decide; naive_solver.
Qed.

Lemma canSave_false_iff_cyan_witness :
  canSave {| rgb := cyan; saves := [] |} = false
  /\ canSave initialState = true.
Proof.
  split.
  - apply (proj1 (canSave_false_iff_cyan {| rgb := cyan; saves := [] |})).
    reflexivity.
  - apply (proj1 (proj2 (canSave_false_iff_cyan initialState))).
    simpl. discriminate.
Defined.

(** ** The fold *)

(** What the fold emits depends on the order of its input alone, not on
    the ticks at which the events fired. *)
Lemma fold_history_order_only {A S} (f : S -> A -> S) seed (ins ins' : xs.Stream A) :
  ins.*2 = ins'.*2 ->
  xs.history (xs.fold f seed ins) = xs.history (xs.fold f seed ins').
Proof.
  unfold xs.history, xs.fold. simpl. intros E. f_equal.
  revert seed ins' E.
  induction ins as [|[t a] ins IH]; intros seed [|[t' a'] ins'] E;
    simpl in *; try done.
  injection E as -> E. f_equal. by apply IH.
Qed.

Lemma last_cons_default {A} (x d : A) (l : list A) :
  List.last (x :: l) d = List.last l x.
Proof.
  revert x d. induction l as [|y l IH]; intros x d; [done|].
  change (List.last (y :: l) d = List.last (y :: l) x). by rewrite !IH.
Qed.

Lemma accumulate_from_last {A S} (f : S -> A -> S) acc (ins : xs.Stream A) :
  List.last (List.map snd (xs.accumulate_from f acc ins)) acc = foldl f acc ins.*2.
Proof.
  revert acc. induction ins as [|[t a] ins IH]; intros acc; [done|].
  cbn [xs.accumulate_from List.map snd fmap list_fmap foldl].
  by rewrite last_cons_default, IH.
Qed.

(** The latest value of a fold is the left fold of the values received. *)
Lemma fold_latest {A S} (f : S -> A -> S) seed (ins : xs.Stream A) :
  xs.latest (xs.fold f seed ins) = foldl f seed ins.*2.
Proof. apply accumulate_from_last. Qed.

(** Folding emitted actions walks the step relation. *)
Lemma foldl_reachable (P : string -> Prop) (acts : list Action) (s : State) :
  Forall (emitted P) acts ->
  rtc (step P) s (foldl (fun state action => action state) s acts).
Proof.
  intros H. revert s. induction H as [|a acts Ha _ IH]; intros s; [done|].
  simpl. eapply rtc_l; [|apply IH]. by exists a.
Qed.

(** Every reachable state is the fold of some emitted actions. *)
Lemma reachable_foldl (P : string -> Prop) (s : State) :
  reachable P s ->
  exists acts, Forall (emitted P) acts
    /\ s = foldl (fun state action => action state) initialState acts.
Proof.
  revert s. unfold reachable. apply rtc_ind_r.
  - by exists [].
  - intros s s' _ (a & Ha & ->) (acts & Hacts & ->).
    exists (acts ++ [a]). split.
    + apply Forall_app. by split; [|constructor].
    + by rewrite foldl_app.
Qed.

(** C1: replay determinism.  Take two runs of the loop fed with the same
    ordered sequence of actions built by [setR], [setG], [setB] and
    [save], fired at whatever ticks.  Both end in the same state, both
    emit the same states on the way, and the final state is the left fold
    of [action(state)] over the sequence, starting from the initial
    state. *)
Theorem replay_determinism (run1 run2 : xs.Stream Action) :
  Forall (emitted any_value) run1.*2 ->
  run1.*2 = run2.*2 ->
  xs.latest (state_ run1) = xs.latest (state_ run2)
  /\ xs.history (state_ run1) = xs.history (state_ run2)
  /\ xs.latest (state_ run1)
     = foldl (fun state action => action state) initialState run1.*2
  /\ reachable any_value (xs.latest (state_ run1)).
Proof.
  intros Hacts E. unfold state_. split_and!.
  - rewrite !fold_latest. f_equal. exact E.
  - by apply fold_history_order_only.
  - apply fold_latest.
  - rewrite fold_latest. by apply foldl_reachable.
Qed.

Lemma replay_determinism_witness :
  xs.latest (state_ [(0, setR "200"); (5, setG "100"); (9, save ())])
  = xs.latest (state_ [(1, setR "200"); (2, setG "100"); (3, save ())]).
Proof.
  apply (replay_determinism
           [(0, setR "200"); (5, setG "100"); (9, save ())]
           [(1, setR "200"); (2, setG "100"); (3, save ())]).
  - repeat constructor.
  - reflexivity.
Defined.

(** C8: from the initial state, [setR("200")], then [setG("100")], then
    [save()] leave the live triple at zeros and exactly one saved triple,
    (200, 100, 0). *)
Theorem scenario_setR_setG_save (t1 t2 t3 : xs.Time) :
  initialState = {| rgb := {| r := "0"; g := "0"; b := "0" |}; saves := [] |}
  /\ xs.latest (state_ [(t1, setR "200"); (t2, setG "100"); (t3, save ())])
     = {| rgb := {| r := "0"; g := "0"; b := "0" |};
          saves := [ {| r := "200"; g := "100"; b := "0" |} ] |}
  /\ save () (setG "100" (setR "200" initialState))
     = {| rgb := {| r := "0"; g := "0"; b := "0" |};
          saves := [ {| r := "200"; g := "100"; b := "0" |} ] |}.
Proof. done. Qed.

(** ** The save button *)

(** The button [main] renders is disabled exactly when [canSave] says no. *)
Lemma save_button_rendered (s : State) :
  dom.select ".save" (main.vtree_ s)
  = Some (dom.button ".save" (negb (canSave s)) "Save").
Proof. reflexivity. Qed.

(** [ActionButton] maps every [click] it hears to [save()]: it has no
    guard of its own, so whether a press saves is up to the host. *)
Lemma press_save (h : Host) (s : State) :
  react h s (press ".save")
  = if fires_click h (negb (canSave s)) then save () s else s.
Proof.
  unfold react, deliver. rewrite save_button_rendered.
  by destruct (fires_click h (negb (canSave s))).
Qed.

Lemma press_save_permissive (s : State) :
  react permissive s (press ".save") = save () s.
Proof. by rewrite press_save. Qed.




(** ** Invariants of the reachable states *)

Section closed_values.
Context (P : string -> Prop).

(** The actions put nothing into the state but the values they carry and
    the constant "0". *)
Lemma step_state_in (s s' : State) :
  P "0" -> step P s s' -> state_in P s -> state_in P s'.
Proof.
  intros H0 (a & Ha & ->) [(Hr & Hg & Hb) Hs].
  destruct Ha; (split; [split_and! |]); simpl; try done.
  apply Forall_app. split; [done|]. by repeat constructor.
Qed.

Lemma reachable_state_in (s : State) :
  P "0" -> reachable P s -> state_in P s.
Proof.
  intros H0. revert s. unfold reachable. apply rtc_ind_r.
  - by repeat split.
  - intros s s' _ Hstep IH. by eapply step_state_in.
Qed.

(** No action touches the triples already saved: [saves] only grows at
    its end. *)
Lemma step_saves_prefix (s s' : State) :
  step P s s' -> saves s `prefix_of` saves s'.
Proof.
  intros (a & Ha & ->). destruct Ha; simpl; try done.
  by apply prefix_app_r.
Qed.

Lemma rtc_saves_prefix (s s' : State) :
  rtc (step P) s s' -> saves s `prefix_of` saves s'.
Proof.
  induction 1 as [|s1 s2 s3 Hstep _ IH]; [done|].
  etrans; [by apply step_saves_prefix | done].
Qed.
End closed_values.

Lemma fields_in_byte (c : RGB) : fields_in byte_value c <-> rgb_in_range c = true.
Proof.
  unfold fields_in, byte_value, rgb_in_range.
  rewrite !andb_true_iff. tauto.
Qed.

(** C6, as amended: over every state reachable from the initial state
    by [save()] and by setters whose values are decimal strings of
    integers in [0, 255], the three fields of the live triple and of each
    saved triple are such strings; and whatever actions follow, with
    whatever values, every saved triple stays at its index with its
    content. *)
Theorem reachable_in_range_and_saves_kept (s : State) :
  reachable byte_value s ->
  rgb_in_range (rgb s) = true
  /\ (forall c, c ∈ saves s -> rgb_in_range c = true)
  /\ (forall s', rtc (step any_value) s s' ->
        forall i c, saves s !! i = Some c -> saves s' !! i = Some c).
Proof.
  intros Hs. apply reachable_state_in in Hs as [Hrgb Hsaves]; [|done].
  split_and!.
  - by apply fields_in_byte.
  - intros c Hc. apply fields_in_byte. by eapply (proj1 (Forall_forall _ _)).
  - intros s' Hs' i c Hi. by eapply prefix_lookup_Some, rtc_saves_prefix.
Qed.

Lemma reachable_in_range_and_saves_kept_witness :
  rgb_in_range (rgb (save () (setR "200" initialState))) = true.
Proof.
  refine (proj1 (reachable_in_range_and_saves_kept
                   (save () (setR "200" initialState)) _)).
  eapply rtc_l; [exists (setR "200"); split; [by constructor | reflexivity] |].
  eapply rtc_l; [exists (save ()); split; [by constructor | reflexivity] |].
  apply rtc_refl.
Defined.

(** C6, as stated, fails: the setters take any string, so a state with a
    field outside [0, 255] is one action away from the initial state. *)
Lemma unrestricted_setter_leaves_range :
  reachable any_value (setR "999" initialState)
  /\ rgb_in_range (rgb (setR "999" initialState)) = false
  /\ is_byte (r (rgb (setR "abc" initialState))) = false.
Proof.
  split_and!; [| done..].
  apply rtc_once. exists (setR "999"). split; [by constructor | done].
Qed.

(** ** What the sliders of [main] can emit on a browser *)

Lemma decimal_is_byte (n : N) : is_byte (decimal n) = (n <=? 255)%N.
Proof.
  unfold is_byte, decimal. rewrite NilZero.usu.
  - by rewrite DecimalN.Unsigned.of_to.
  - intros E. assert (n = 0%N) as ->.
    { by rewrite <- (DecimalN.Unsigned.of_to n), E. }
    discriminate E.
Qed.

Lemma browser_range_value_is_byte (position : N) :
  is_byte (range_value browser 0 255 position) = true.
Proof. simpl. rewrite decimal_is_byte. apply N.leb_le. lia. Qed.

(** A list of [pre] blocks holds no element that carries a selector. *)
Lemma select_saves_display (selector : string) (p : SavesDisplay.Props) :
  dom.select selector (SavesDisplay.DOM p)
  = if SavesDisplay.selector p =? selector
    then Some (SavesDisplay.DOM p) else None.
Proof.
  unfold SavesDisplay.DOM. simpl.
  destruct (SavesDisplay.selector p =? selector); [done|].
  by induction (SavesDisplay.saves p) as [|c l IH].
Qed.

(** The elements of the page, by selector. *)
Lemma select_vtree (selector : string) (s : State) :
  dom.select selector (main.vtree_ s)
  = if "" =? selector then Some (main.vtree_ s)
    else if ".red" =? selector then Some (dom.input ".red" "range" 0 255 (getR s))
    else if ".green" =? selector then Some (dom.input ".green" "range" 0 255 (getG s))
    else if ".blue" =? selector then Some (dom.input ".blue" "range" 0 255 (getB s))
    else if ".save" =? selector
      then Some (dom.button ".save" (negb (canSave s)) "Save")
    else if ".saves" =? selector
      then Some (SavesDisplay.DOM (main.savesDisplay s))
    else None.
Proof.
  pose proof (select_saves_display selector (main.savesDisplay s)) as Hd.
  unfold main.vtree_.
  cbn [dom.select LabeledSlider.DOM ActionButton.DOM main.redSlider
       main.greenSlider main.blueSlider main.saveButton
       LabeledSlider.selector ActionButton.selector] in *.
  destruct ("" =? selector); [done|].
  destruct (".red" =? selector); [done|].
  destruct (".green" =? selector); [done|].
  destruct (".blue" =? selector); [done|].
  destruct (".save" =? selector); [done|].
  rewrite Hd. change (SavesDisplay.selector (main.savesDisplay s)) with ".saves".
  by destruct (".saves" =? selector).
Qed.

(** Case analysis on which element of the page a selector names. *)
Local Ltac on_element selector tac :=
  destruct (String.eqb_spec "" selector) as [<-|_]; [tac|];
  destruct (String.eqb_spec ".red" selector) as [<-|_]; [tac|];
  destruct (String.eqb_spec ".green" selector) as [<-|_]; [tac|];
  destruct (String.eqb_spec ".blue" selector) as [<-|_]; [tac|];
  destruct (String.eqb_spec ".save" selector) as [<-|_]; [tac|];
  destruct (String.eqb_spec ".saves" selector) as [<-|_]; [tac|].

(** One turn on a browser either leaves the state alone or applies one
    action whose value, if any, is a byte. *)
Lemma react_browser_step (s : State) (gesture : Gesture) :
  react browser s gesture = s \/ step byte_value s (react browser s gesture).
Proof.
  assert (forall position, emitted byte_value
            (setR (range_value browser 0 255 position))
          /\ emitted byte_value (setG (range_value browser 0 255 position))
          /\ emitted byte_value (setB (range_value browser 0 255 position)))
    as Hset.
  { intros position. pose proof (browser_range_value_is_byte position).
    by split_and!; constructor. }
  destruct gesture as [selector position | selector];
    unfold react, deliver; rewrite select_vtree.
  - on_element selector
      ltac:(first [ by left
                  | right; exists (setR (range_value browser 0 255 position));
                    split; [apply Hset | reflexivity]
                  | right; exists (setG (range_value browser 0 255 position));
                    split; [apply Hset | reflexivity]
                  | right; exists (setB (range_value browser 0 255 position));
                    split; [apply Hset | reflexivity] ]).
    by left.
  - on_element selector
      ltac:(first [ by left
                  | cbn [fires_click browser];
                    destruct (canSave s); [right | by left];
                    exists (save ()); split; [constructor | reflexivity] ]).
    by left.
Qed.

Lemma browser_session_steps (s : State) (gestures : list Gesture) :
  rtc (step byte_value) s (session browser s gestures).
Proof.
  unfold session. revert s.
  induction gestures as [|gesture gestures IH]; intros s; [done|].
  simpl. destruct (react_browser_step s gesture) as [-> | Hstep]; [done|].
  by eapply rtc_l.
Qed.

(** Every state a browser session reaches is reachable with byte values. *)
Lemma browser_session_reachable (gestures : list Gesture) :
  reachable byte_value (session browser initialState gestures).
Proof. apply browser_session_steps. Qed.

(** * Further properties of the code *)

(** ** The reducer *)

(** X1: writing back the value a getter has just read changes nothing:
    [setR(getR(s))(s)] is [s], and likewise for the green and the blue
    field. *)
Theorem setter_of_current_value_is_noop (s : State) :
  setR (getR s) s = s /\ setG (getG s) s = s /\ setB (getB s) s = s.
Proof.
  unfold setR, setG, setB, getR, getG, getB.
  split_and!; apply R.set_view.
Qed.

(** X2: of two writes to the same field only the last one counts,
    whatever the two values are. *)
Theorem setter_last_write_wins (s : State) (v w : string) :
  setR w (setR v s) = setR w s
  /\ setG w (setG v s) = setG w s
  /\ setB w (setB v s) = setB w s.
Proof.
  unfold setR, setG, setB.
  split_and!; apply R.set_set.
Qed.

(** X3: whatever the state was, right after [save()] the three getters
    read "0" and saving is allowed again. *)
Theorem save_reenables_saving (s : State) :
  getR (save () s) = "0" /\ getG (save () s) = "0" /\ getB (save () s) = "0"
  /\ canSave (save () s) = true.
Proof. by rewrite save_unfold. Qed.

(** Whether a state with a given live triple may be saved. *)
Lemma canSave_of_triple (x y z : string) (l : list RGB) :
  canSave {| rgb := {| r := x; g := y; b := z |}; saves := l |}
  = negb (bool_decide (x = "0" /\ y = "255" /\ z = "255")).
Proof.
  rewrite canSave_spec. f_equal. apply bool_decide_ext. unfold cyan. simpl.
  split.
  - by intros [= -> -> ->].
  - by intros (-> & -> & ->).
Qed.

(** X4: once the three setters have run, in whichever of the six
    possible orders, the live triple is made of the three values given
    and nothing of the previous triple is left, while [saves] is as it
    was; saving is then refused exactly when the values are "0", "255",
    "255". *)
Theorem setters_fix_the_triple (s : State) (x y z : string) :
  Forall (fun s' =>
            rgb s' = {| r := x; g := y; b := z |}
            /\ saves s' = saves s
            /\ canSave s' = negb (bool_decide (x = "0" /\ y = "255" /\ z = "255")))
    [ setB z (setG y (setR x s));
      setG y (setB z (setR x s));
      setB z (setR x (setG y s));
      setR x (setB z (setG y s));
      setG y (setR x (setB z s));
      setR x (setG y (setB z s)) ].
Proof.
  repeat constructor; exact (canSave_of_triple x y z (saves s)).
Qed.

(** X5: [save()] and a setter do not commute: saving first and setting
    red afterwards gives the same state as the other order only when
    the value set is "0" and red already was "0". *)
Theorem save_and_setter_order_matters (s : State) (v : string) :
  setR v (save () s) = save () (setR v s) <-> v = "0" /\ r (rgb s) = "0".
Proof.
  rewrite !save_unfold, !setR_unfold. destruct s as [[x y z] l]. simpl.
  split.
  - intros [= -> E]. apply app_inj_tail in E as [_ [= ->]]. done.
  - by intros [-> ->].
Qed.

Lemma save_and_setter_order_matters_witness :
  setR "0" (save () initialState) = save () (setR "0" initialState).
Proof.
  apply (proj2 (save_and_setter_order_matters initialState "0")).
  split; reflexivity.
Defined.

(** ** Components and wiring *)

(** What a gesture on a slider, or on anything that is not one, does to
    the state, on any host. *)
Lemma react_slide (h : Host) (s : State) (selector : string) (position : N) :
  react h s (slide selector position)
  = if ".red" =? selector then setR (range_value h 0 255 position) s
    else if ".green" =? selector then setG (range_value h 0 255 position) s
    else if ".blue" =? selector then setB (range_value h 0 255 position) s
    else s.
Proof.
  unfold react, deliver. rewrite select_vtree.
  on_element selector ltac:(reflexivity). reflexivity.
Qed.

(** What a press does to the state, on any host. *)
Lemma react_press (h : Host) (s : State) (selector : string) :
  react h s (press selector)
  = if ".save" =? selector
    then (if fires_click h (negb (canSave s)) then save () s else s)
    else s.
Proof.
  unfold react, deliver. rewrite select_vtree.
  on_element selector
    ltac:(first [ reflexivity
                | by destruct (fires_click h (negb (canSave s))) ]).
  reflexivity.
Qed.

(** X6: the merged action stream carries at most one action per DOM
    event, and which one does not depend on the state: a [change] on
    ".red", ".green" or ".blue" gives the setter of that field with the
    event's value, a [click] on ".save" gives [save()], and every other
    event gives nothing. *)
Theorem one_event_at_most_one_action (s : State) (ev : dom.Event) :
  main.action_ s ev
  = match ev with
    | dom.change target value =>
        if target =? ".red" then [setR value]
        else if target =? ".green" then [setG value]
        else if target =? ".blue" then [setB value]
        else []
    | dom.click target => if target =? ".save" then [save ()] else []
    end.
Proof.
  destruct ev as [target value | target]; unfold main.action_; simpl.
  - destruct (String.eqb_spec target ".red") as [->|_]; [done|].
    destruct (String.eqb_spec target ".green") as [->|_]; [done|].
    by destruct (String.eqb_spec target ".blue") as [->|_].
  - by destruct (String.eqb_spec target ".save") as [->|_].
Qed.

(** X7: on any host, dragging a slider applies the setter of that
    slider's own field, and no other action, to the value the host
    reports for a range control with bounds 0 and 255. *)
Theorem slider_drives_its_own_field (h : Host) (s : State) (position : N) :
  react h s (slide ".red" position) = setR (range_value h 0 255 position) s
  /\ react h s (slide ".green" position) = setG (range_value h 0 255 position) s
  /\ react h s (slide ".blue" position) = setB (range_value h 0 255 position) s.
Proof. by rewrite !react_slide. Qed.



(** X9: on a browser, a press on the save button applies [save()] when
    [canSave] allows it and does nothing otherwise. *)
Theorem browser_press_saves_iff_allowed (s : State) :
  react browser s (press ".save") = if canSave s then save () s else s.
Proof. rewrite react_press. by destruct (canSave s). Qed.

(** X10: on a browser, two presses in a row on an enabled save button
    save twice: first the live triple, then the all-zero triple the
    first save left behind. *)
Theorem double_press_saves_zeros (s : State) :
  canSave s = true ->
  session browser s [press ".save"; press ".save"]
  = {| rgb := {| r := "0"; g := "0"; b := "0" |};
       saves := saves s ++ [rgb s; {| r := "0"; g := "0"; b := "0" |}] |}.
Proof.
  intros Hcan. unfold session. cbn [foldl].
  rewrite (press_save browser s), Hcan. cbn [negb fires_click browser].
  rewrite press_save, !save_unfold. simpl. by rewrite <- app_assoc.
Qed.

Lemma double_press_saves_zeros_witness :
  session browser (setR "9" initialState) [press ".save"; press ".save"]
  = {| rgb := {| r := "0"; g := "0"; b := "0" |};
       saves := [ {| r := "9"; g := "0"; b := "0" |};
                  {| r := "0"; g := "0"; b := "0" |} ] |}.
Proof.
  apply (double_press_saves_zeros (setR "9" initialState)).
  reflexivity.
Defined.

(** X11: when the host fires [click] on a disabled control, nothing in
    the code stops the save: a press in a cyan state saves cyan and
    resets the live triple. *)
Theorem unguarded_click_saves_cyan (h : Host) (s : State) :
  fires_click h true = true ->
  rgb s = {| r := "0"; g := "255"; b := "255" |} ->
  react h s (press ".save")
  = {| rgb := {| r := "0"; g := "0"; b := "0" |};
       saves := saves s ++ [ {| r := "0"; g := "255"; b := "255" |} ] |}.
Proof.
  intros Hhost Hcyan. rewrite press_save.
  assert (canSave s = false) as ->.
  { rewrite canSave_spec. by rewrite bool_decide_eq_true_2. }
  cbn [negb]. by rewrite Hhost, save_unfold, Hcyan.
Qed.

Lemma unguarded_click_saves_cyan_witness :
  react permissive {| rgb := cyan; saves := [] |} (press ".save")
  = {| rgb := {| r := "0"; g := "0"; b := "0" |}; saves := [cyan] |}.
Proof.
  apply (unguarded_click_saves_cyan permissive {| rgb := cyan; saves := [] |}).
  - reflexivity.
  - reflexivity.
Defined.

(** ** Sessions *)

(** X12: whatever the user does to the page on a browser, starting from
    the initial state, every field of the live triple and of every saved
    triple is the decimal string of an integer in [0, 255]. *)
Theorem browser_session_in_range (gestures : list Gesture) :
  rgb_in_range (rgb (session browser initialState gestures)) = true
  /\ Forall (fun c => rgb_in_range c = true)
       (saves (session browser initialState gestures)).
Proof.
  destruct (reachable_state_in byte_value
              (session browser initialState gestures)) as [Hrgb Hsaves].
  { done. }
  { apply browser_session_reachable. }
  split.
  - by apply fields_in_byte.
  - eapply Forall_impl; [exact Hsaves|]. intros c. apply fields_in_byte.
Qed.

(** One turn on a browser keeps cyan out of [saves]. *)
Lemma react_browser_no_cyan (s : State) (gesture : Gesture) :
  cyan ∉ saves s -> cyan ∉ saves (react browser s gesture).
Proof.
  intros Hs. destruct gesture as [selector position | selector].
  - rewrite react_slide.
    by repeat (destruct (_ =? selector); [done|]).
  - rewrite react_press. destruct (".save" =? selector); [|done].
    cbn [fires_click browser]. destruct (canSave s) eqn:Hcan; [|done].
    rewrite save_unfold. simpl. rewrite elem_of_app, list_elem_of_singleton.
    intros [?|E]; [done|].
    rewrite canSave_spec, <- E in Hcan. by rewrite bool_decide_eq_true_2 in Hcan.
Qed.

(** X13: on a browser, cyan is never saved: if [saves] holds no cyan
    triple before a session, it holds none after it, whatever the
    gestures. *)
Theorem browser_never_saves_cyan (s : State) (gestures : list Gesture) :
  {| r := "0"; g := "255"; b := "255" |} ∉ saves s ->
  {| r := "0"; g := "255"; b := "255" |} ∉ saves (session browser s gestures).
Proof.
  fold cyan. unfold session. revert s.
  induction gestures as [|gesture gestures IH]; intros s Hs; [done|].
  simpl. by apply IH, react_browser_no_cyan.
Qed.

Lemma browser_never_saves_cyan_witness :
  cyan ∉ saves (session browser initialState
                  [slide ".green" 255; slide ".blue" 300; press ".save";
                   slide ".red" 1; press ".save"]).
Proof.
  apply (browser_never_saves_cyan initialState).
  simpl. apply not_elem_of_nil.
Defined.

(** One turn adds at most one triple, at the end of [saves], and only on
    a press on the save button. *)
Lemma react_saves (h : Host) (s : State) (gesture : Gesture) :
  saves (react h s gesture) = saves s
  \/ (is_save_press gesture = true
      /\ saves (react h s gesture) = saves s ++ [rgb s]).
Proof.
  destruct gesture as [selector position | selector].
  - left. rewrite react_slide.
    by repeat (destruct (_ =? selector); [done|]).
  - rewrite react_press.
    destruct (String.eqb_spec ".save" selector) as [<-|_]; [|by left].
    destruct (fires_click h (negb (canSave s)));
      [right; split; reflexivity | by left].
Qed.

(** X14: on any host, a session only ever appends to [saves], and by at
    most one triple per press on the save button; sliders alone never
    change [saves]. *)
Theorem saves_grow_only_by_presses (h : Host) (s : State) (gestures : list Gesture) :
  saves s `prefix_of` saves (session h s gestures)
  /\ length (saves (session h s gestures)) <= length (saves s) + save_presses gestures
  /\ (save_presses gestures = 0 -> saves (session h s gestures) = saves s).
Proof.
  assert (saves s `prefix_of` saves (session h s gestures)
          /\ length (saves (session h s gestures))
             <= length (saves s) + save_presses gestures) as [Hpre Hlen].
  { unfold session, save_presses. revert s.
    induction gestures as [|gesture gestures IH]; intros s.
    - simpl. split; [done | lia].
    - cbn [foldl List.filter]. destruct (IH (react h s gesture)) as [Hpre Hlen].
      destruct (react_saves h s gesture) as [E | [Hp E]]; rewrite E in *.
      + split; [done|]. destruct (is_save_press gesture); simpl; lia.
      + rewrite Hp. rewrite length_app in Hlen. simpl in *. split; [|lia].
        etrans; [|exact Hpre]. by apply prefix_app_r. }
  split_and!; [done..|].
  intros Hnone. rewrite Hnone, Nat.add_0_r in Hlen.
  symmetry. apply prefix_length_eq; [done | lia].
Qed.

Lemma saves_grow_only_by_presses_witness :
  saves (session browser (save () initialState)
           [slide ".red" 3; press ".red"; slide ".blue" 4])
  = saves (save () initialState).
Proof.
  refine (proj2 (proj2 (saves_grow_only_by_presses browser (save () initialState)
                          [slide ".red" 3; press ".red"; slide ".blue" 4])) _).
  reflexivity.
Defined.

(** ** The state stream *)

Lemma accumulate_from_lookup {A S} (f : S -> A -> S) (acc : S)
    (ins : xs.Stream A) (i : nat) :
  i <= length ins ->
  (acc :: List.map snd (xs.accumulate_from f acc ins)) !! i
  = Some (foldl f acc (take i ins.*2)).
Proof.
  revert acc i. induction ins as [|[t a] ins IH]; intros acc i Hi.
  - simpl in Hi. by replace i with 0 by lia.
  - destruct i as [|i]; [done|].
    cbn [xs.accumulate_from List.map snd fmap list_fmap take foldl lookup list_lookup].
    apply IH. simpl in Hi. lia.
Qed.

Lemma accumulate_from_ticks {A S} (f : S -> A -> S) (acc : S) (ins : xs.Stream A) :
  (xs.accumulate_from f acc ins).*1 = ins.*1.
Proof.
  revert acc. induction ins as [|[t a] ins IH]; intros acc; [done|].
  simpl. by rewrite IH.
Qed.

(** X15: [state$] emits the initial state and then exactly one state per
    action, at that action's tick; the state emitted after the first i
    actions is the left fold of those i actions over the initial state,
    so no emitted state reflects part of an action or skips one. *)
Theorem every_emitted_state_is_a_replay (run : xs.Stream Action) (i : nat) :
  i <= length run ->
  xs.history (state_ run) !! i
  = Some (foldl (fun state action => action state) initialState (take i run.*2))
  /\ length (xs.history (state_ run)) = S (length run)
  /\ (xs.emissions (state_ run)).*1 = run.*1.
Proof.
  intros Hi. unfold state_, xs.history, xs.fold. cbn [xs.seed xs.emissions].
  split_and!.
  - by apply accumulate_from_lookup.
  - simpl. rewrite length_map.
    by rewrite <- (length_fmap fst), accumulate_from_ticks, length_fmap.
  - apply accumulate_from_ticks.
Qed.

Lemma every_emitted_state_is_a_replay_witness :
  xs.history (state_ [(3, setR "7"); (4, save ()); (9, setB "1")]) !! 2
  = Some (save () (setR "7" initialState)).
Proof.
  refine (proj1 (every_emitted_state_is_a_replay
                   [(3, setR "7"); (4, save ()); (9, setB "1")] 2 _)).
  simpl. lia.
Defined.

(** ** The view *)

(** X16: on any host, after a drag on a slider the page shows, in that
    slider, exactly the value that was stored, and the other two sliders
    show what they showed before. *)
Theorem slider_shows_what_was_set (h : Host) (s : State) (position : N) :
  let s' := react h s (slide ".red" position) in
  dom.select ".red" (main.vtree_ s')
  = Some (dom.input ".red" "range" 0 255 (range_value h 0 255 position))
  /\ dom.select ".green" (main.vtree_ s') = dom.select ".green" (main.vtree_ s)
  /\ dom.select ".blue" (main.vtree_ s') = dom.select ".blue" (main.vtree_ s).
Proof. intros s'. subst s'. by rewrite react_slide, !select_vtree. Qed.

(** X17: the saves display shows one block per saved triple, and every
    action only ever adds a block at its end: the blocks already shown
    stay where they are with their text. *)
Theorem saves_display_append_only (s : State) (a : Action) :
  emitted any_value a ->
  length (children (SavesDisplay.DOM (main.savesDisplay s))) = length (saves s)
  /\ children (SavesDisplay.DOM (main.savesDisplay s))
     `prefix_of` children (SavesDisplay.DOM (main.savesDisplay (a s))).
Proof.
  intros Ha. unfold SavesDisplay.DOM, main.savesDisplay. simpl. split.
  - apply length_map.
  - destruct (step_saves_prefix any_value s (a s)) as [k ->]; [by exists a|].
    rewrite List.map_app. by apply prefix_app_r.
Qed.

Lemma saves_display_append_only_witness :
  length (children (SavesDisplay.DOM (main.savesDisplay (save () initialState))))
  = 1.
Proof.
  refine (proj1 (saves_display_append_only (save () initialState) (setR "5") _)).
  by constructor.
Defined.

(** ** The text of a saved triple *)

#[local] Arguments String.append !_ _ / : simpl nomatch.

Lemma string_app_assoc (s t u : string) : (s +:+ t) +:+ u = s +:+ (t +:+ u).
Proof. induction s as [|c s IH]; [done|]. simpl. by rewrite IH. Qed.

Lemma parsed_all_digits (s : string) (d : Decimal.uint) :
  NilEmpty.uint_of_string s = Some d -> all_digits s = true.
Proof.
  revert d. induction s as [|c s IH]; intros d; [done|].
  simpl. destruct (NilEmpty.uint_of_string s) as [d'|]; [|done].
  rewrite (IH d' eq_refl), andb_true_r. clear IH.
  destruct c as [[] [] [] [] [] [] [] []]; simpl; first [done | discriminate].
Qed.

Lemma is_byte_all_digits (v : string) : is_byte v = true -> all_digits v = true.
Proof.
  unfold is_byte. destruct v as [|c v]; [done|].
  unfold NilZero.uint_of_string.
  destruct (NilEmpty.uint_of_string (String c v)) as [d|] eqn:E; [|done].
  intros _. by eapply parsed_all_digits.
Qed.

Lemma escape_digit (c : ascii) : is_digit c = true -> JSON.escape_char c = String c "".
Proof.
  destruct c as [[] [] [] [] [] [] [] []]; first [done | discriminate].
Qed.

Lemma escape_all_digits (s : string) : all_digits s = true -> JSON.escape s = s.
Proof.
  induction s as [|c s IH]; [done|].
  simpl. intros [Hc Hs]%andb_true_iff. by rewrite escape_digit, IH.
Qed.

(** A run of digits ends where the first quote stands. *)
Lemma digits_until_quote (s s' t t' : string) :
  all_digits s = true -> all_digits s' = true ->
  s +:+ JSON.quote +:+ t = s' +:+ JSON.quote +:+ t' ->
  s = s' /\ t = t'.
Proof.
  revert s'. induction s as [|c s IH]; intros [|c' s'] Hs Hs'; simpl in *.
  - by intros [= ->].
  - intros [= <- _]. done.
  - intros [= -> _]. done.
  - apply andb_true_iff in Hs as [_ Hs]. apply andb_true_iff in Hs' as [_ Hs'].
    intros [= -> E]. by destruct (IH s' Hs Hs' E) as [-> ->].
Qed.

(** X18: for a triple whose fields are decimal strings of integers in
    [0, 255], [JSON.stringify] escapes nothing: the text is the three
    members, quoted, in the order r, g, b; and two such triples with the
    same text are the same triple. *)
Theorem in_range_triple_text (c c' : RGB) :
  rgb_in_range c = true -> rgb_in_range c' = true ->
  JSON.stringify c = plain_json c
  /\ (JSON.stringify c = JSON.stringify c' -> c = c').
Proof.
  assert (forall k, rgb_in_range k = true ->
            all_digits (r k) = true /\ all_digits (g k) = true
            /\ all_digits (b k) = true) as Hdigits.
  { intros k. unfold rgb_in_range. rewrite !andb_true_iff.
    intros [[? ?] ?]. by split_and!; apply is_byte_all_digits. }
  assert (forall k, rgb_in_range k = true -> JSON.stringify k = plain_json k)
    as Hplain.
  { intros k Hk. destruct (Hdigits k Hk) as (Hr & Hg & Hb).
    unfold JSON.stringify, JSON.member, JSON.string_literal, plain_json.
    rewrite (escape_all_digits (r k)), (escape_all_digits (g k)),
      (escape_all_digits (b k)) by done.
    change (JSON.escape "r") with "r". change (JSON.escape "g") with "g".
    change (JSON.escape "b") with "b".
    by rewrite !string_app_assoc. }
  intros Hc Hc'. split; [by apply Hplain|].
  rewrite !Hplain by done.
  destruct (Hdigits c Hc) as (Hr & Hg & Hb).
  destruct (Hdigits c' Hc') as (Hr' & Hg' & Hb').
  destruct c as [x y z], c' as [x' y' z']. unfold plain_json. simpl in *.
  intros [= E].
  apply (digits_until_quote x x') in E as [-> E]; [|done..].
  injection E as E.
  apply (digits_until_quote y y') in E as [-> E]; [|done..].
  injection E as E.
  by apply (digits_until_quote z z') in E as [-> _].
Qed.

Lemma in_range_triple_text_witness :
  JSON.stringify {| r := "200"; g := "100"; b := "0" |}
  = plain_json {| r := "200"; g := "100"; b := "0" |}.
Proof.
  refine (proj1 (in_range_triple_text {| r := "200"; g := "100"; b := "0" |}
                   {| r := "0"; g := "0"; b := "0" |} _ _)).
  - reflexivity.
  - reflexivity.
Defined.

(** ** The components on their own *)

Lemma simple_selector_nonempty (s : string) : simple_selector s = true -> s <> "".
Proof. by destruct s. Qed.

(** X19: a labeled slider whose selector names one class or one id and
    whose label is plain text emits for a DOM event exactly when the
    event is a [change] on its own selector, and then emits [props.set]
    of the event's value; the element found under that selector in what
    it renders is a range input with the props' bounds that shows
    [props.get]. *)
Theorem labeled_slider_contract (props : LabeledSlider.Props)
    (ev : dom.Event) (a : Action) :
  simple_selector (LabeledSlider.selector props) = true ->
  reads_as_selector (LabeledSlider.label props) = false ->
  (LabeledSlider.action props ev = Some a
   <-> exists value,
         ev = dom.change (LabeledSlider.selector props) value
         /\ a = LabeledSlider.set props value)
  /\ dom.select (LabeledSlider.selector props) (LabeledSlider.DOM props)
     = Some (dom.input (LabeledSlider.selector props) "range"
               (LabeledSlider.min props) (LabeledSlider.max props)
               (LabeledSlider.get props)).
Proof.
  intros Hsel%simple_selector_nonempty _. split.
  - destruct ev as [target value | target]; simpl.
    + destruct (String.eqb_spec target (LabeledSlider.selector props)) as [->|Hne].
      * split; [intros [= <-]; by exists value | by intros (? & [= <-] & ->)].
      * split; [done | by intros (? & [= ?] & _)].
    + split; [done | by intros (? & [= ] & _)].
  - unfold LabeledSlider.DOM. cbn [dom.select].
    destruct (String.eqb_spec "" (LabeledSlider.selector props)) as [E|_].
    { by destruct Hsel. }
    by rewrite String.eqb_refl.
Qed.

Lemma labeled_slider_contract_witness :
  dom.select ".red" (LabeledSlider.DOM (main.redSlider initialState))
  = Some (dom.input ".red" "range" 0 255 "0").
Proof.
  refine (proj2 (labeled_slider_contract (main.redSlider initialState)
                   (dom.click ".red") (setR "1") _ _)).
  - reflexivity.
  - reflexivity.
Defined.

(** X20: an action button whose selector names one class or one id
    emits for a DOM event exactly when the event is a [click] on its own
    selector, and then emits [props.set()]; [canAct] plays no part in
    what it emits: it only decides the [disabled] property of the button
    found under that selector in what the component renders. *)
Theorem action_button_contract (props : ActionButton.Props)
    (ev : dom.Event) (a : Action) (canAct' : bool) :
  simple_selector (ActionButton.selector props) = true ->
  (ActionButton.action props ev = Some a
   <-> ev = dom.click (ActionButton.selector props)
       /\ a = ActionButton.set props ())
  /\ ActionButton.action
       {| ActionButton.selector := ActionButton.selector props;
          ActionButton.caption := ActionButton.caption props;
          ActionButton.set := ActionButton.set props;
          ActionButton.canAct := canAct' |} ev
     = ActionButton.action props ev
  /\ dom.select (ActionButton.selector props) (ActionButton.DOM props)
     = Some (dom.button (ActionButton.selector props)
               (negb (ActionButton.canAct props)) (ActionButton.caption props)).
Proof.
  intros Hsel%simple_selector_nonempty. split_and!.
  - destruct ev as [target value | target]; simpl.
    + split; [done | by intros [[= ] _]].
    + destruct (String.eqb_spec target (ActionButton.selector props)) as [->|Hne].
      * split; [by intros [= <-] | by intros [_ ->]].
      * split; [done | by intros [[= ?] _]].
  - done.
  - unfold ActionButton.DOM. cbn [dom.select].
    destruct (String.eqb_spec "" (ActionButton.selector props)) as [E|_].
    { by destruct Hsel. }
    by rewrite String.eqb_refl.
Qed.

Lemma action_button_contract_witness :
  dom.select ".save" (ActionButton.DOM (main.saveButton initialState))
  = Some (dom.button ".save" false "Save").
Proof.
  refine (proj2 (proj2 (action_button_contract (main.saveButton initialState)
                          (dom.click ".save") (save ()) false _))).
  reflexivity.
Defined.

(** ** Sessions and replays *)

(** The state is all the loop remembers: a session over two lists of
    gestures in a row is the session over the second list started from
    the state the first one ended in. *)
Lemma session_resumes (h : Host) (s : State) (gestures gestures' : list Gesture) :
  session h s (gestures ++ gestures')
  = session h (session h s gestures) gestures'.
Proof. apply foldl_app. Qed.

(** X21: every state a browser session ends in is the replay, over the
    initial state, of a list of actions built by the four constructors
    from in-range values. *)
Theorem browser_session_is_a_replay (gestures : list Gesture) :
  exists acts : list Action,
    Forall (emitted byte_value) acts
    /\ session browser initialState gestures
       = foldl (fun state action => action state) initialState acts.
Proof. apply reachable_foldl, browser_session_reachable. Qed.
